(** * jenkinsapi.artifact: the download / verify / cache logic of [Artifact]

    A shallow embedding of [src/jenkinsapi/artifact.py] (Python 3: the module
    imports [urllib.request]).  The file system, the log and the network are
    an explicit state; exceptions and non-termination are results. *)

From Stdlib Require Import Strings.String Strings.Ascii Strings.Byte ZArith List Lia Bool.
From stdpp Require Import gmap strings.

Open Scope string_scope.

#[global] Instance byte_eq_decision : EqDecision byte := Byte.byte_eq_dec.

(** ** Python values that the checksum loop compares *)

(** [open(p, 'rb').read(n)] yields [bytes]; the literal [''] is a [str]. *)
Inductive PyVal :=
| PyBytes (b : list byte)
| PyStr (s : string).

(** Python 3 [==]: a [bytes] object never equals a [str] object. *)
Definition py_eq (x y : PyVal) : bool :=
  match x, y with
  | PyBytes a, PyBytes b => bool_decide (a = b)
  | PyStr a, PyStr b => bool_decide (a = b)
  | _, _ => false
  end.

(** ** Path helpers ([str.endswith], [posixpath.basename], [posixpath.join]) *)

Definition endswith (s suffix : string) : bool :=
  (String.length suffix <=? String.length s)%nat &&
  String.eqb
    (substring (String.length s - String.length suffix) (String.length suffix) s)
    suffix.

Definition startswith (s pre : string) : bool := String.prefix pre s.

Fixpoint has_sep (p : string) : bool :=
  match p with
  | EmptyString => false
  | String c r => Ascii.eqb c "/" || has_sep r
  end.

(** [i = p.rfind('/') + 1; return p[i:]] *)
Fixpoint basename (p : string) : string :=
  match p with
  | EmptyString => EmptyString
  | String c r =>
      if has_sep r then basename r
      else if Ascii.eqb c "/" then r else p
  end.

Definition os_path_join (a b : string) : string :=
  if startswith b "/" then b
  else if (String.eqb a "" || endswith a "/") then a ++ b
  else a ++ "/" ++ b.

(** ** The world: files, log records and network calls *)

Inductive Node :=
| File (content : list byte)
| Dir.

Inductive Level := INFO | WARNING.

Inductive Transport := Authenticated | Plain.

Inductive Event :=
| ELog (lvl : Level) (msg : string)
| EFetch (via : Transport) (url : string)
| EOracle (md5 filename job : string) (buildno : Z).

Record World := mkWorld {
  fs : gmap string Node;
  trace : list Event
}.

Inductive Exc :=
| ArtifactBroken
| AttributeError
| AssertionError
| OSError
| URLError.

Inductive Result (A : Type) :=
| Ret (a : A)
| Raise (e : Exc)
| Timeout.
Arguments Ret {A} a.
Arguments Raise {A} e.
Arguments Timeout {A}.

(** A computation reads and updates the world and returns, raises, or is
    still running when its fuel is spent. *)
Definition M (A : Type) : Type := World -> World * Result A.

Definition ret {A} (a : A) : M A := fun w => (w, Ret a).
Definition raise {A} (e : Exc) : M A := fun w => (w, Raise e).

Definition bind {A B} (m : M A) (k : A -> M B) : M B :=
  fun w =>
    match m w with
    | (w', Ret a) => k a w'
    | (w', Raise e) => (w', Raise e)
    | (w', Timeout) => (w', Timeout)
    end.

Notation "'let*' x := m 'in' k" := (bind m (fun x => k))
  (at level 10, x name, m at level 100, k at level 200).

(** [try: m  except ArtifactBroken: h] *)
Definition try_except_ArtifactBroken {A} (m h : M A) : M A :=
  fun w =>
    match m w with
    | (w', Raise ArtifactBroken) => h w'
    | r => r
    end.

Definition emit (e : Event) : M unit :=
  fun w => (mkWorld (fs w) (trace w ++ [e]), Ret tt).

Definition log_info (msg : string) : M unit := emit (ELog INFO msg).
(** [log.warn] is the deprecated alias of [log.warning]. *)
Definition log_warning (msg : string) : M unit := emit (ELog WARNING msg).

Definition py_assert (b : bool) : M unit :=
  if b then ret tt else raise AssertionError.

Definition exists_in (files : gmap string Node) (p : string) : bool :=
  match files !! p with Some _ => true | None => false end.

Definition isdir_in (files : gmap string Node) (p : string) : bool :=
  match files !! p with Some Dir => true | _ => false end.

Definition os_path_exists (p : string) : M bool :=
  fun w => (w, Ret (exists_in (fs w) p)).

Definition os_path_isdir (p : string) : M bool :=
  fun w => (w, Ret (isdir_in (fs w) p)).

(** ** Collaborators outside the module *)

(** What a remote end answers to a fetch. *)
Inductive Response :=
| ConnFail
| ReadFail (partial : list byte)
| Body (content : list byte).

(** Modelled from the spec: [Fingerprint.validate_for_build] of
    [jenkinsapi.fingerprint], which is not among the sources.  The oracle
    returns a boolean or raises [ArtifactBroken] when it cannot classify
    the digest. *)
Inductive OracleAnswer :=
| Confirms (ok : bool)
| CannotClassify.

Record Env := mkEnv {
  (** [hashlib.md5(data).hexdigest()] *)
  md5_hexdigest : list byte -> string;
  (** [Fingerprint(baseurl, md5, jenkins).validate_for_build(name, job, n)] *)
  validate_for_build : string -> string -> string -> string -> Z -> OracleAnswer;
  (** the build's authenticated opener, applied to a url *)
  opener : string -> Response;
  (** [urllib.request.urlopen], as used by [urlretrieve] *)
  urlopen : string -> Response;
  (** permissions of [open(p, 'rb')] and [open(p, 'wb')] *)
  may_read : string -> bool;
  may_write : string -> bool
}.

(** ** The artifact *)

Record Build := mkBuild {
  job_name : string;
  baseurl : string;
  buildno : Z
}.

Record Artifact := mkArtifact {
  filename : string;
  url : string;
  build : option Build
}.

Definition with_filename (a : Artifact) (name : string) : Artifact :=
  mkArtifact name (url a) (build a).

Section Artifact.

Variable env : Env.

(** [open(p, 'rb')]: the bytes that the handle will deliver. *)
Definition open_rb (p : string) : M (list byte) :=
  fun w =>
    match fs w !! p with
    | Some (File content) =>
        if may_read env p then (w, Ret content) else (w, Raise OSError)
    | _ => (w, Raise OSError)
    end.

(** [open(p, 'wb')]: creates or truncates the file. *)
Definition open_wb (p : string) : M unit :=
  fun w =>
    match fs w !! p with
    | Some Dir => (w, Raise OSError)
    | _ =>
        if may_write env p
        then (mkWorld (<[p := File []]> (fs w)) (trace w), Ret tt)
        else (w, Raise OSError)
    end.

Definition write_bytes (p : string) (data : list byte) : M unit :=
  fun w => (mkWorld (<[p := File data]> (fs w)) (trace w), Ret tt).

(** *** Checksum engine *)

(** [for chunk in iter(lambda: f.read(chunksize), sentinel): md5.update(chunk)]
    over the unread bytes [rest]; [acc] is what the accumulator was fed. *)
Fixpoint md5_loop (sentinel : PyVal) (chunksize : nat) (fuel : nat)
    (rest acc : list byte) : Result (list byte) :=
  match fuel with
  | O => Timeout
  | S fuel' =>
      let chunk := firstn chunksize rest in
      if py_eq (PyBytes chunk) sentinel then Ret acc
      else md5_loop sentinel chunksize fuel' (skipn chunksize rest) (acc ++ chunk)
  end.

Definition md5sum_with (sentinel : PyVal) (fuel : nat) (fspath : string)
    (chunksize : nat) : M string :=
  let* content := open_rb fspath in
  fun w =>
    match md5_loop sentinel chunksize fuel content [] with
    | Ret fed => (w, Ret (md5_hexdigest env fed))
    | Raise e => (w, Raise e)
    | Timeout => (w, Timeout)
    end.

(** [Artifact._md5sum]: the sentinel of the source is the [str] ['']. *)
Definition _md5sum (fuel : nat) (fspath : string) (chunksize : nat) : M string :=
  md5sum_with (PyStr "") fuel fspath chunksize.

Definition default_chunksize : nat := 2 ^ 20.

(** The checksum engine as the specification words it: reading stops at
    the empty chunk.  Kept beside [_md5sum] for comparison. *)
Definition computeHash (fuel : nat) (fspath : string) (chunksize : nat) : M string :=
  md5sum_with (PyBytes []) fuel fspath chunksize.

(** *** Transport *)

Definition fetch (via : Transport) (u : string) : M Response :=
  let* _ := emit (EFetch via u) in
  ret (match via with
       | Authenticated => opener env u
       | Plain => urlopen env u
       end).

(** [urllib.request.urlretrieve(url, filename=...)]: opens the url, then the
    file, copies the body and returns the file name with the headers. *)
Definition urlretrieve (u name : string) : M (string * unit) :=
  let* r := fetch Plain u in
  match r with
  | ConnFail => raise URLError
  | ReadFail partial =>
      let* _ := open_wb name in
      let* _ := write_bytes name partial in
      raise URLError
  | Body content =>
      let* _ := open_wb name in
      let* _ := write_bytes name content in
      ret (name, tt)
  end.

(** [Artifact._do_download] *)
Definition _do_download (a : Artifact) (fspath : string) : M string :=
  match build a with
  | Some _ =>
      let* f := fetch Authenticated (url a) in
      match f with
      | ConnFail => raise URLError
      | ReadFail _ =>
          let* _ := open_wb fspath in
          raise URLError
      | Body content =>
          let* _ := open_wb fspath in
          let* _ := write_bytes fspath content in
          ret fspath
      end
  | None =>
      let* r := urlretrieve (url a) fspath in
      ret (fst r)
  end.

(** *** Verification *)

(** The body of [Artifact._verify_download]; [md5sum] is what
    [self._md5sum] resolves to. *)
Definition verify_with (md5sum : string -> M string) (a : Artifact)
    (fspath : string) : M bool :=
  let* local_md5 := md5sum fspath in
  match build a with
  | None => raise AttributeError
  | Some b =>
      let name := basename fspath in
      let* _ := emit (EOracle local_md5 name (job_name b) (buildno b)) in
      match validate_for_build env (baseurl b) local_md5 name (job_name b) (buildno b) with
      | Confirms ok => ret ok
      | CannotClassify => raise ArtifactBroken
      end
  end.

Definition _verify_download (fuel : nat) (a : Artifact) (fspath : string) : M bool :=
  verify_with (fun p => _md5sum fuel p default_chunksize) a fspath.

(** *** Resolver *)

Definition saving_message (a : Artifact) (fspath : string) : string :=
  "Saving artifact @ " ++ url a ++ " to " ++ fspath.

Definition rename_warning (a : Artifact) : string :=
  "Attempt to change the filename of artifact " ++ filename a ++ " on save.".

Definition up_to_date_message (a : Artifact) : string :=
  "Local copy of " ++ filename a ++ " is already up to date.".

(** The body of [Artifact.save]; [verify] is what [self._verify_download]
    resolves to.  The inner computation answers whether the early
    [return fspath] was taken. *)
Definition save_body (verify : string -> M bool) (a : Artifact)
    (fspath : string) : M string :=
  let* _ := log_info (saving_message a fspath) in
  let* _ := (if endswith fspath (filename a) then ret tt
             else log_warning (rename_warning a)) in
  let* there := os_path_exists fspath in
  let* up_to_date :=
    (if there then
       match build a with
       | Some _ =>
           try_except_ArtifactBroken
             (let* ok := verify fspath in
              if ok then
                let* _ := log_info (up_to_date_message a) in
                ret true
              else ret false)
             (let* _ := log_info "Jenkins artifact could not be identified." in
              ret false)
       | None =>
           let* _ := log_info "This file did not originate from Jenkins, so cannot check." in
           ret false
       end
     else
       let* _ := log_info "Local file is missing, downloading new." in
       ret false) in
  if up_to_date then ret fspath
  else
    let* name := _do_download a fspath in
    let* _ := try_except_ArtifactBroken
                (let* _ := verify name in ret tt)
                (log_warning "fingerprint of the downloaded artifact could not be verified") in
    ret name.

(** [Artifact.save] *)
Definition save (fuel : nat) (a : Artifact) (fspath : string) : M string :=
  save_body (_verify_download fuel a) a fspath.

(** [Artifact.savetodir] *)
Definition savetodir (fuel : nat) (a : Artifact) (dirpath : string) : M string :=
  let* e := os_path_exists dirpath in
  let* _ := py_assert e in
  let* d := os_path_isdir dirpath in
  let* _ := py_assert d in
  let outputfilepath := os_path_join dirpath (filename a) in
  save fuel a outputfilepath.

(** [save] with the checksum engine of the specification in place of
    [_md5sum]: what the resolver does once the checksum returns. *)
Definition save_computeHash (fuel : nat) (a : Artifact) (fspath : string) : M string :=
  save_body (verify_with (fun p => computeHash fuel p default_chunksize) a) a fspath.

(** *** Closed forms used in the statements below *)

(** [open(p, 'rb')] would succeed. *)
Definition readable (files : gmap string Node) (p : string) : bool :=
  match files !! p with
  | Some (File _) => may_read env p
  | _ => false
  end.

(** [open(p, 'wb')] would succeed. *)
Definition writable (files : gmap string Node) (p : string) : bool :=
  match files !! p with
  | Some Dir => false
  | _ => may_write env p
  end.

(** What a call of [_verify_download] amounts to: the checksum either
    cannot open the file or never comes back. *)
Definition stuck {A} (files : gmap string Node) (p : string) : Result A :=
  if readable files p then Timeout else Raise OSError.

(** The world once [save] has logged its first line and, when the suffix
    test fails, the rename warning. *)
Definition announced (a : Artifact) (p : string) (w : World) : World :=
  mkWorld (fs w)
    ((trace w ++ [ELog INFO (saving_message a p)]) ++
     (if endswith p (filename a) then []
      else [ELog WARNING (rename_warning a)]))%list.

Definition noted (msg : string) (w : World) : World :=
  mkWorld (fs w) (trace w ++ [ELog INFO msg])%list.

Definition transport_of (a : Artifact) : Transport :=
  match build a with Some _ => Authenticated | None => Plain end.

Definition response_of (a : Artifact) : Response :=
  match build a with
  | Some _ => opener env (url a)
  | None => urlopen env (url a)
  end.

(** The files after [_do_download] and its result. *)
Definition download_effect (a : Artifact) (p : string)
    (files : gmap string Node) : gmap string Node * Result string :=
  match response_of a with
  | ConnFail => (files, Raise URLError)
  | ReadFail partial =>
      if writable files p
      then (<[p := File (match build a with Some _ => [] | None => partial end)]> files,
            Raise URLError)
      else (files, Raise OSError)
  | Body content =>
      if writable files p
      then (<[p := File content]> files, Ret p)
      else (files, Raise OSError)
  end.

Definition fetched (a : Artifact) (w : World) : list Event :=
  (trace w ++ [EFetch (transport_of a) (url a)])%list.

(** Lines 46-57 of the source: is the early [return fspath] taken? *)
Definition precheck (verify : string -> M bool) (a : Artifact) (p : string)
    (there : bool) : M bool :=
  if there then
    match build a with
    | Some _ =>
        try_except_ArtifactBroken
          (let* ok := verify p in
           if ok then
             let* _ := log_info (up_to_date_message a) in
             ret true
           else ret false)
          (let* _ := log_info "Jenkins artifact could not be identified." in
           ret false)
    | None =>
        let* _ := log_info "This file did not originate from Jenkins, so cannot check." in
        ret false
    end
  else
    let* _ := log_info "Local file is missing, downloading new." in
    ret false.

(** Lines 58-63 of the source. *)
Definition download_and_check (verify : string -> M bool) (a : Artifact)
    (p : string) : M string :=
  let* name := _do_download a p in
  let* _ := try_except_ArtifactBroken
              (let* _ := verify name in ret tt)
              (log_warning "fingerprint of the downloaded artifact could not be verified") in
  ret name.

(** The message logged before a download that no verification preceded. *)
Definition download_reason (there : bool) : string :=
  if there then "This file did not originate from Jenkins, so cannot check."
  else "Local file is missing, downloading new.".

End Artifact.

(** ** Observations on a run *)

Definition is_fetch (e : Event) : bool :=
  match e with EFetch _ _ => true | _ => false end.

Definition is_log (e : Event) : bool :=
  match e with ELog _ _ => true | _ => false end.

(** The network calls of a trace, in order. *)
Definition fetches (t : list Event) : list Event := List.filter is_fetch t.

(** What a trace shows besides the log. *)
Definition actions (t : list Event) : list Event :=
  List.filter (fun e => negb (is_log e)) t.

(** ** Concrete collaborators and worlds used by the examples *)

Module Demo.

Definition digest_of_empty : string := "d41d8cd98f00b204e9800998ecf8427e".

(** An environment in which every fetch delivers [body], every file may
    be opened, and the oracle gives the same [answer] to every query. *)
Definition env_of (answer : OracleAnswer) (body : list byte) : Env :=
  mkEnv (fun _ => digest_of_empty) (fun _ _ _ _ _ => answer)
        (fun _ => Body body) (fun _ => Body body)
        (fun _ => true) (fun _ => true).

Definition build_A : Build := mkBuild "build-A" "http://ci.example" 42.

Definition report_url : string :=
  "http://ci.example/job/build-A/42/artifact/report.xml".

Definition report (b : option Build) : Artifact :=
  mkArtifact "report.xml" report_url b.

Definition target : string := "/tmp/out/report.xml".

(** [/tmp/out] holds an empty [report.xml]. *)
Definition cached : World :=
  mkWorld (<["/tmp/out" := Dir]> (<[target := File []]> ∅)) [].

(** [/tmp/out] is an empty directory. *)
Definition fresh : World :=
  mkWorld (<["/tmp/out" := Dir]> ∅) [].

End Demo.

(** ** [Artifact.__repr__] *)

(** ["<%s.%s %s>" % (self.__class__.__module__, self.__class__.__name__, self.url)]
    for an instance of [Artifact] itself, whose class is [Artifact] of the
    module [jenkinsapi.artifact]. *)
Definition __repr__ (a : Artifact) : string :=
  "<" ++ "jenkinsapi.artifact" ++ "." ++ "Artifact" ++ " " ++ url a ++ ">".

(** ** Further observations on a run *)

Definition is_oracle (e : Event) : bool :=
  match e with EOracle _ _ _ _ => true | _ => false end.

Definition is_warning (e : Event) : bool :=
  match e with ELog WARNING _ => true | _ => false end.

(** The queries put to the fingerprint oracle, in order. *)
Definition oracle_queries (t : list Event) : list Event :=
  List.filter is_oracle t.

(** The log records of level WARNING, in order. *)
Definition warnings (t : list Event) : list Event :=
  List.filter is_warning t.

(** ** Further collaborators used by the examples *)

Module MoreDemo.

(** Every connection fails. *)
Definition offline : Env :=
  mkEnv (fun _ => Demo.digest_of_empty) (fun _ _ _ _ _ => Confirms true)
        (fun _ => ConnFail) (fun _ => ConnFail)
        (fun _ => true) (fun _ => true).

(** Every connection opens and then breaks while the body is read. *)
Definition flaky : Env :=
  mkEnv (fun _ => Demo.digest_of_empty) (fun _ _ _ _ _ => Confirms true)
        (fun _ => ReadFail ["x"%byte]) (fun _ => ReadFail ["x"%byte])
        (fun _ => true) (fun _ => true).

(** [/tmp/out] holds a [report.xml] with one byte. *)
Definition stale : World :=
  mkWorld (<["/tmp/out" := Dir]> (<[Demo.target := File ["o"%byte]]> ∅)) [].

End MoreDemo.

Open Scope list_scope.

(** * Results *)

(** ** The checksum engine *)

Section Checksum.

Variable env : Env.

Lemma py_eq_bytes_str (b : list byte) (s : string) :
  py_eq (PyBytes b) (PyStr s) = false.
Proof. reflexivity. Qed.

(** With a [str] sentinel the loop never stops, whatever is left to read. *)
Lemma md5_loop_str_sentinel (s : string) (chunksize fuel : nat) :
  forall rest acc, md5_loop (PyStr s) chunksize fuel rest acc = Timeout.
Proof.
  induction fuel as [|fuel IH]; intros rest acc; simpl.
  - reflexivity.
  - apply IH.
Qed.

Lemma firstn_nil_iff (n : nat) (l : list byte) :
  (0 < n)%nat -> firstn n l = [] <-> l = [].
Proof.
  intros Hn. destruct n as [|n]; [lia|].
  destruct l as [|x l]; simpl; split; intros H; congruence.
Qed.

(** With the empty [bytes] sentinel the loop feeds the whole content to the
    accumulator, wherever the chunk boundaries fall. *)
Lemma md5_loop_bytes_sentinel (chunksize : nat) :
  (0 < chunksize)%nat ->
  forall fuel rest acc,
    (length rest < fuel)%nat ->
    md5_loop (PyBytes []) chunksize fuel rest acc = Ret (acc ++ rest).
Proof.
  intros Hc. induction fuel as [|fuel IH]; intros rest acc Hlen; [lia|].
  simpl. destruct rest as [|x rest].
  - rewrite firstn_nil. simpl. now rewrite app_nil_r.
  - rewrite bool_decide_false.
    + rewrite IH.
      * rewrite <- app_assoc. now rewrite firstn_skipn.
      * rewrite length_skipn. simpl in Hlen. simpl. lia.
    + intros H. apply (firstn_nil_iff chunksize (x :: rest) Hc) in H. discriminate.
Qed.

Lemma md5sum_with_unreadable (sentinel : PyVal) (fuel : nat) (p : string)
    (chunksize : nat) (w : World) :
  readable env (fs w) p = false ->
  md5sum_with env sentinel fuel p chunksize w = (w, Raise OSError).
Proof.
  unfold readable, md5sum_with, bind, open_rb. intros H.
  destruct (fs w !! p) as [[content|]|]; try reflexivity.
  now rewrite H.
Qed.

(** Neither engine touches the world. *)
Lemma md5sum_with_frame (sentinel : PyVal) (fuel : nat) (p : string)
    (chunksize : nat) (w w' : World) (r : Result string) :
  md5sum_with env sentinel fuel p chunksize w = (w', r) -> w' = w.
Proof.
  unfold md5sum_with, bind, open_rb.
  destruct (fs w !! p) as [[content|]|]; try destruct (may_read env p);
    try destruct (md5_loop sentinel chunksize fuel content []);
    intros H; now inversion H.
Qed.

(** [_md5sum] leaves the world as it is and never returns a digest: it
    fails to open the file, or it reads forever. *)
Lemma _md5sum_outcome (fuel : nat) (p : string) (chunksize : nat) (w : World) :
  _md5sum env fuel p chunksize w = (w, stuck env (fs w) p).
Proof.
  unfold _md5sum, stuck. destruct (readable env (fs w) p) eqn:Hr.
  - unfold readable in Hr. unfold md5sum_with, bind, open_rb.
    destruct (fs w !! p) as [[content|]|]; try discriminate.
    rewrite Hr. now rewrite md5_loop_str_sentinel.
  - now apply md5sum_with_unreadable.
Qed.

(** The engine of the specification returns the digest of the content. *)
Lemma computeHash_digest (fuel : nat) (p : string) (chunksize : nat)
    (w : World) (content : list byte) :
  (0 < chunksize)%nat ->
  fs w !! p = Some (File content) ->
  may_read env p = true ->
  (length content < fuel)%nat ->
  computeHash env fuel p chunksize w = (w, Ret (md5_hexdigest env content)).
Proof.
  intros Hc Hf Hr Hlen. unfold computeHash, md5sum_with, bind, open_rb.
  rewrite Hf, Hr. now rewrite (md5_loop_bytes_sentinel chunksize Hc).
Qed.

Lemma default_chunksize_pos : (0 < default_chunksize)%nat.
Proof.
  unfold default_chunksize. apply Nat.neq_0_lt_0, Nat.pow_nonzero. discriminate.
Qed.

Lemma stuck_readable {A} (files : gmap string Node) (p : string)
    (content : list byte) :
  files !! p = Some (File content) ->
  may_read env p = true ->
  @stuck env A files p = Timeout.
Proof. intros Hf Hr. unfold stuck, readable. now rewrite Hf, Hr. Qed.

(** C2: for every readable file, [_md5sum] does not terminate: whatever the
    fuel and the chunk size, the run is still in its loop and no digest is
    returned.  The claim says it returns the MD5 of the content. *)
Theorem C2_md5sum_never_returns (fuel chunksize : nat) (p : string)
    (content : list byte) (w : World) :
  fs w !! p = Some (File content) ->
  may_read env p = true ->
  _md5sum env fuel p chunksize w = (w, Timeout).
Proof.
  intros Hf Hr. rewrite _md5sum_outcome. now rewrite (stuck_readable _ _ _ Hf Hr).
Qed.

End Checksum.

(** ** Traces and the download step *)

Section Download.

Variable env : Env.

Lemma fetches_app (t u : list Event) : fetches (t ++ u) = fetches t ++ fetches u.
Proof. apply List.filter_app. Qed.

Lemma actions_app (t u : list Event) : actions (t ++ u) = actions t ++ actions u.
Proof. apply List.filter_app. Qed.

Lemma fetches_announced (a : Artifact) (p : string) (w : World) :
  fetches (trace (announced a p w)) = fetches (trace w).
Proof.
  unfold announced. simpl. rewrite !fetches_app.
  destruct (endswith p (filename a)); simpl; now rewrite !app_nil_r.
Qed.

Lemma actions_announced (a : Artifact) (p : string) (w : World) :
  actions (trace (announced a p w)) = actions (trace w).
Proof.
  unfold announced. simpl. rewrite !actions_app.
  destruct (endswith p (filename a)); simpl; now rewrite !app_nil_r.
Qed.

Lemma fetches_noted (msg : string) (w : World) :
  fetches (trace (noted msg w)) = fetches (trace w).
Proof. unfold noted. simpl. rewrite fetches_app. simpl. now rewrite app_nil_r. Qed.

Lemma actions_noted (msg : string) (w : World) :
  actions (trace (noted msg w)) = actions (trace w).
Proof. unfold noted. simpl. rewrite actions_app. simpl. now rewrite app_nil_r. Qed.

Lemma rename_warning_announced (a : Artifact) (p : string) (w : World) :
  endswith p (filename a) = false ->
  In (ELog WARNING (rename_warning a)) (trace (announced a p w)).
Proof.
  intros H. unfold announced. simpl. rewrite H.
  apply in_or_app. right. now left.
Qed.

Lemma exists_in_file (files : gmap string Node) (p : string) (n : Node) :
  files !! p = Some n -> exists_in files p = true.
Proof. intros H. unfold exists_in. now rewrite H. Qed.

Lemma open_wb_eq (p : string) (w : World) :
  open_wb env p w =
  if writable env (fs w) p
  then (mkWorld (<[p := File []]> (fs w)) (trace w), Ret tt)
  else (w, Raise OSError).
Proof.
  unfold open_wb, writable.
  destruct (fs w !! p) as [[c|]|]; reflexivity.
Qed.

(** [_do_download] makes one fetch and changes the files as
    [download_effect] says. *)
Lemma _do_download_eq (a : Artifact) (p : string) (w : World) :
  _do_download env a p w =
  (mkWorld (fst (download_effect env a p (fs w))) (fetched a w),
   snd (download_effect env a p (fs w))).
Proof.
  unfold _do_download, urlretrieve, download_effect, response_of, fetched,
    transport_of, fetch, bind, emit, ret, raise, write_bytes.
  destruct (build a) as [b|]; simpl.
  - destruct (opener env (url a)) as [|partial|content]; simpl;
      try reflexivity; rewrite open_wb_eq; simpl;
      destruct (writable env (fs w) p); simpl; try reflexivity.
    now rewrite insert_insert_eq.
  - destruct (urlopen env (url a)) as [|partial|content]; simpl;
      try reflexivity; rewrite open_wb_eq; simpl;
      destruct (writable env (fs w) p); simpl; try reflexivity;
      now rewrite insert_insert_eq.
Qed.

(** A download that returns leaves a regular file at the path it returns,
    and that path is the one it was given. *)
Lemma download_effect_ret (a : Artifact) (p name : string)
    (files files' : gmap string Node) :
  download_effect env a p files = (files', Ret name) ->
  name = p /\ exists content, files' !! p = Some (File content).
Proof.
  unfold download_effect.
  destruct (response_of env a) as [|partial|content];
    try destruct (writable env files p); intros H; inversion H; subst.
  split; [reflexivity|]. exists content. apply lookup_insert_eq.
Qed.

End Download.

(** ** [save] for any verification method

    [save] reaches [_verify_download] through [self]; the statements of this
    section hold for whatever that name resolves to. *)

Section LateBound.

Variable env : Env.
Variable verify : string -> M bool.

Lemma save_prologue (a : Artifact) (p : string) (w : World)
    (k : bool -> M string) :
  (let* _ := log_info (saving_message a p) in
   let* _ := (if endswith p (filename a) then ret tt
              else log_warning (rename_warning a)) in
   let* there := os_path_exists p in
   k there) w
  = k (exists_in (fs w) p) (announced a p w).
Proof.
  unfold bind, log_info, log_warning, emit, ret, os_path_exists, announced.
  simpl. destruct (endswith p (filename a)); simpl.
  - now rewrite app_nil_r.
  - reflexivity.
Qed.

Lemma save_body_split (a : Artifact) (p : string) (w : World) :
  save_body env verify a p w =
  (let* up_to_date := precheck verify a p (exists_in (fs w) p) in
   if up_to_date then ret p else download_and_check env verify a p)
    (announced a p w).
Proof. unfold save_body. now rewrite save_prologue. Qed.

(** The verification confirms the local copy: [save] returns at once. *)
Lemma save_body_short_circuit (a : Artifact) (b : Build) (p : string)
    (w w' : World) :
  build a = Some b ->
  exists_in (fs w) p = true ->
  verify p (announced a p w) = (w', Ret true) ->
  save_body env verify a p w = (noted (up_to_date_message a) w', Ret p).
Proof.
  intros Hb He Hv. rewrite save_body_split, He.
  unfold bind, precheck, try_except_ArtifactBroken. rewrite Hb.
  unfold bind. now rewrite Hv.
Qed.

(** The verification answers false: [save] goes on to download. *)
Lemma save_body_refuted (a : Artifact) (b : Build) (p : string) (w w' : World) :
  build a = Some b ->
  exists_in (fs w) p = true ->
  verify p (announced a p w) = (w', Ret false) ->
  save_body env verify a p w = download_and_check env verify a p w'.
Proof.
  intros Hb He Hv. rewrite save_body_split, He.
  unfold bind at 1. unfold precheck, try_except_ArtifactBroken. rewrite Hb.
  unfold bind at 1. now rewrite Hv.
Qed.

(** The verification raises [ArtifactBroken]: [save] logs it and goes on
    to download. *)
Lemma save_body_unclassified (a : Artifact) (b : Build) (p : string)
    (w w' : World) :
  build a = Some b ->
  exists_in (fs w) p = true ->
  verify p (announced a p w) = (w', Raise ArtifactBroken) ->
  save_body env verify a p w =
  download_and_check env verify a p
    (noted "Jenkins artifact could not be identified." w').
Proof.
  intros Hb He Hv. rewrite save_body_split, He.
  unfold bind at 1. unfold precheck, try_except_ArtifactBroken. rewrite Hb.
  unfold bind at 1. now rewrite Hv.
Qed.

(** No local copy, or no build context: [save] goes on to download. *)
Lemma save_body_downloading (a : Artifact) (p : string) (w : World) :
  exists_in (fs w) p = false \/ build a = None ->
  save_body env verify a p w =
  download_and_check env verify a p
    (noted (download_reason (exists_in (fs w) p)) (announced a p w)).
Proof.
  intros H. rewrite save_body_split. unfold bind at 1. unfold precheck.
  destruct (exists_in (fs w) p).
  - destruct H as [H|H]; [discriminate|]. now rewrite H.
  - reflexivity.
Qed.

Lemma precheck_true (a : Artifact) (p : string) (there : bool) (w w' : World) :
  precheck verify a p there w = (w', Ret true) -> there = true.
Proof.
  destruct there; [reflexivity|].
  unfold precheck, bind, log_info, emit, ret. intros H. inversion H.
Qed.

Lemma download_and_check_ret (a : Artifact) (p name : string) (w w' : World) :
  download_and_check env verify a p w = (w', Ret name) ->
  exists w1 w2 r,
    download_effect env a p (fs w) = (fs w1, Ret name) /\
    (let* _ := verify name in ret tt) w1 = (w2, r) /\
    fs w' = fs w2.
Proof.
  unfold download_and_check. unfold bind at 1. rewrite _do_download_eq.
  destruct (download_effect env a p (fs w)) as [files [n|e|]] eqn:Hd; simpl;
    try (intros H; discriminate H).
  unfold bind at 1. unfold try_except_ArtifactBroken.
  set (w1 := mkWorld files (fetched a w)).
  destruct ((let* _ := verify n in ret tt) w1) as [w2 r] eqn:Hv.
  intros H. exists w1, w2, r.
  destruct r as [[]|e|].
  - inversion H; subst. now repeat split.
  - destruct e; try discriminate H.
    unfold log_warning, emit, ret in H. inversion H; subst. now repeat split.
  - discriminate H.
Qed.

(** Under a verification method that lets it return, the body of [save]
    returns the path it was given. *)
Lemma save_body_returns_its_argument (a : Artifact) (p name : string)
    (w w' : World) :
  save_body env verify a p w = (w', Ret name) ->
  name = p.
Proof.
  rewrite save_body_split. unfold bind at 1.
  destruct (precheck verify a p (exists_in (fs w) p) (announced a p w))
    as [w1 [[|]|e|]]; try (intros H; discriminate H).
  - intros H. now inversion H.
  - intros H. apply download_and_check_ret in H as (w2 & w3 & r & Hd & _ & _).
    now apply download_effect_ret in Hd as [-> _].
Qed.

(** *** When the verification only reads *)

Hypothesis verify_reads_only :
  forall q v v' r, verify q v = (v', r) -> fs v' = fs v.

Lemma precheck_frame (a : Artifact) (p : string) (there : bool) (w w' : World)
    (r : Result bool) :
  precheck verify a p there w = (w', r) -> fs w' = fs w.
Proof.
  unfold precheck, try_except_ArtifactBroken, bind, log_info, emit, ret.
  destruct there; [destruct (build a)|].
  - destruct (verify p w) as [v [[|]|e|]] eqn:Hv;
      apply verify_reads_only in Hv; try destruct e;
      intros H; inversion H; subst; simpl; exact Hv.
  - intros H; inversion H; subst; reflexivity.
  - intros H; inversion H; subst; reflexivity.
Qed.

Lemma checked_frame (name : string) (w1 w2 : World) (r : Result unit) :
  (let* _ := verify name in ret tt) w1 = (w2, r) -> fs w2 = fs w1.
Proof.
  unfold bind, ret. destruct (verify name w1) as [v [ok|e|]] eqn:Hv;
    apply verify_reads_only in Hv; intros H; inversion H; subst; exact Hv.
Qed.

(** Under a verification method that lets it return, the body of [save]
    returns a path at which something exists. *)
Lemma save_body_returned_path_exists (a : Artifact) (p name : string)
    (w w' : World) :
  save_body env verify a p w = (w', Ret name) ->
  exists_in (fs w') name = true.
Proof.
  rewrite save_body_split. unfold bind at 1.
  destruct (precheck verify a p (exists_in (fs w) p) (announced a p w))
    as [w1 [[|]|e|]] eqn:Hpre; try (intros H; discriminate H).
  - intros H. inversion H; subst.
    apply precheck_frame in Hpre as Hfs. apply precheck_true in Hpre.
    rewrite Hfs. exact Hpre.
  - intros H. apply download_and_check_ret in H as (w2 & w3 & r & Hd & Hv & Hfs).
    apply checked_frame in Hv.
    apply download_effect_ret in Hd as [-> [content Hc]].
    rewrite Hfs, Hv. exact (exists_in_file _ _ _ Hc).
Qed.

End LateBound.

(** ** [save] as the class has it *)

Section Resolver.

Variable env : Env.

Lemma verify_with_frame (md5sum : string -> M string) (a : Artifact) :
  (forall q v v' r, md5sum q v = (v', r) -> v' = v) ->
  forall q v v' r, verify_with env md5sum a q v = (v', r) -> fs v' = fs v.
Proof.
  intros Hm q v v' r. unfold verify_with, bind, emit, ret, raise.
  destruct (md5sum q v) as [v1 [d|e|]] eqn:Hd; apply Hm in Hd; subst v1.
  - destruct (build a) as [b|].
    + destruct (validate_for_build env _ _ _ _ _); intros H; now inversion H.
    + intros H; now inversion H.
  - intros H; now inversion H.
  - intros H; now inversion H.
Qed.

(** Without a build context the query that follows the checksum raises
    [AttributeError]. *)
Lemma verify_with_no_build (md5sum : string -> M string) (a : Artifact)
    (p digest : string) (w : World) :
  build a = None ->
  md5sum p w = (w, Ret digest) ->
  verify_with env md5sum a p w = (w, Raise AttributeError).
Proof.
  intros Hb Hm. unfold verify_with, bind. now rewrite Hm, Hb.
Qed.

(** [_verify_download] never gets past its first line. *)
Lemma _verify_download_outcome (fuel : nat) (a : Artifact) (p : string) (w : World) :
  _verify_download env fuel a p w = (w, stuck env (fs w) p).
Proof.
  unfold _verify_download, verify_with, bind.
  rewrite _md5sum_outcome. unfold stuck. now destruct (readable env (fs w) p).
Qed.

(** A local copy and a build context: the run ends in the verification. *)
Lemma save_cached_build (fuel : nat) (a : Artifact) (b : Build) (p : string)
    (w : World) :
  build a = Some b ->
  exists_in (fs w) p = true ->
  save env fuel a p w = (announced a p w, stuck env (fs w) p).
Proof.
  intros Hb He. unfold save. rewrite save_body_split, He.
  unfold bind, precheck, try_except_ArtifactBroken. rewrite Hb. unfold bind.
  rewrite _verify_download_outcome. simpl.
  unfold stuck. now destruct (readable env (fs w) p).
Qed.

(** Otherwise the run downloads, and ends in the verification of what it
    downloaded. *)
Lemma save_downloading_eq (fuel : nat) (a : Artifact) (p : string) (w : World) :
  exists_in (fs w) p = false \/ build a = None ->
  let w1 := noted (download_reason (exists_in (fs w) p)) (announced a p w) in
  let d := download_effect env a p (fs w) in
  save env fuel a p w =
  (mkWorld (fst d) (fetched a w1),
   match snd d with
   | Ret name => stuck env (fst d) name
   | Raise e => Raise e
   | Timeout => Timeout
   end).
Proof.
  intros H w1 d. unfold save. rewrite (save_body_downloading _ _ _ _ _ H).
  fold w1. unfold download_and_check. unfold bind at 1. rewrite _do_download_eq.
  replace (fs w1) with (fs w) by reflexivity. fold d.
  destruct d as [files [name|e|]]; simpl; try reflexivity.
  unfold bind at 1. unfold try_except_ArtifactBroken. unfold bind at 1.
  rewrite _verify_download_outcome. simpl.
  unfold stuck. now destruct (readable env files name).
Qed.


(** A readable local copy and a build context: whatever the oracle would
    answer, the run never gets to ask, nor to fetch, nor to return. *)
Lemma save_cached_build_hangs (fuel : nat) (a : Artifact) (b : Build)
    (p : string) (content : list byte) (w : World) :
  build a = Some b ->
  fs w !! p = Some (File content) ->
  may_read env p = true ->
  let r := save env fuel a p w in
  snd r = Timeout /\ fs (fst r) = fs w /\
  fetches (trace (fst r)) = fetches (trace w).
Proof.
  intros Hb Hf Hr r. subst r.
  rewrite (save_cached_build fuel a b p w Hb (exists_in_file _ _ _ Hf)).
  simpl. rewrite (stuck_readable env _ _ _ Hf Hr).
  split; [reflexivity|]. split; [reflexivity|].
  apply fetches_announced.
Qed.




(** C4: with a build context, a readable file at [p] and an oracle that
    confirms the digest of its content, [save] makes no fetch and leaves the
    file as it is, but it does not return [p]: for every fuel the run is
    still inside the checksum loop.  The claim says it returns. *)
Theorem C4_confirmed_copy_is_never_returned (fuel : nat) (a : Artifact)
    (b : Build) (p : string) (content : list byte) (w : World) :
  build a = Some b ->
  fs w !! p = Some (File content) ->
  may_read env p = true ->
  validate_for_build env (baseurl b) (md5_hexdigest env content) (basename p)
    (job_name b) (buildno b) = Confirms true ->
  let r := save env fuel a p w in
  snd r = Timeout /\ fs (fst r) = fs w /\
  fetches (trace (fst r)) = fetches (trace w).
Proof.
  intros Hb Hf Hr _. exact (save_cached_build_hangs fuel a b p content w Hb Hf Hr).
Qed.

(** C6: with a build context, a readable file at [p] and an oracle that
    cannot classify the digest of its content, [save] never reaches the
    fetch: for every fuel the run is still inside the checksum loop and the
    trace holds no fetch that was not there before.  The claim says the
    fetch is made. *)
Theorem C6_unclassified_copy_is_never_refetched (fuel : nat) (a : Artifact)
    (b : Build) (p : string) (content : list byte) (w : World) :
  build a = Some b ->
  fs w !! p = Some (File content) ->
  may_read env p = true ->
  validate_for_build env (baseurl b) (md5_hexdigest env content) (basename p)
    (job_name b) (buildno b) = CannotClassify ->
  let r := save env fuel a p w in
  snd r = Timeout /\ fetches (trace (fst r)) = fetches (trace w).
Proof.
  intros Hb Hf Hr _ r.
  destruct (save_cached_build_hangs fuel a b p content w Hb Hf Hr) as (H1 & _ & H3).
  now split.
Qed.

(** C9: with a build context, a readable file at [p] and an oracle that
    answers false for the digest of its content, [save] neither fetches nor
    overwrites the file: for every fuel the run is still inside the
    checksum loop.  The claim says the file is downloaded again. *)
Theorem C9_refuted_copy_is_never_refetched (fuel : nat) (a : Artifact)
    (b : Build) (p : string) (content : list byte) (w : World) :
  build a = Some b ->
  fs w !! p = Some (File content) ->
  may_read env p = true ->
  validate_for_build env (baseurl b) (md5_hexdigest env content) (basename p)
    (job_name b) (buildno b) = Confirms false ->
  let r := save env fuel a p w in
  snd r = Timeout /\ fs (fst r) !! p = Some (File content) /\
  fetches (trace (fst r)) = fetches (trace w).
Proof.
  intros Hb Hf Hr _ r.
  destruct (save_cached_build_hangs fuel a b p content w Hb Hf Hr) as (H1 & H2 & H3).
  subst r. rewrite H2. now repeat split.
Qed.

(** C5: without a build context and with a file already at [p], [save]
    makes exactly one fetch, the plain one, of the artifact's url; and when
    that fetch delivers a body and the file may be written, the file at [p]
    holds that body afterwards. *)
Theorem C5_no_context_always_fetches (fuel : nat) (a : Artifact) (p : string)
    (content : list byte) (w : World) :
  build a = None ->
  fs w !! p = Some (File content) ->
  let w' := fst (save env fuel a p w) in
  fetches (trace w') = fetches (trace w) ++ [EFetch Plain (url a)] /\
  forall body,
    urlopen env (url a) = Body body ->
    may_write env p = true ->
    fs w' !! p = Some (File body).
Proof.
  intros Hb Hf w'. subst w'.
  rewrite (save_downloading_eq fuel a p w (or_intror Hb)). simpl. split.
  - unfold fetched. rewrite fetches_app, fetches_noted, fetches_announced.
    unfold transport_of. now rewrite Hb.
  - intros body Hu Hw. unfold download_effect, response_of, writable.
    rewrite Hb, Hu, Hf, Hw. simpl. apply lookup_insert_eq.
Qed.

(** C8: when [dirpath] is missing or is not a directory, [savetodir] raises
    [AssertionError] and the world is as it was: nothing was fetched,
    written or logged. *)
Theorem C8_savetodir_checks_directory_first (fuel : nat) (a : Artifact)
    (dirpath : string) (w : World) :
  isdir_in (fs w) dirpath = false ->
  savetodir env fuel a dirpath w = (w, Raise AssertionError).
Proof.
  intros H. unfold savetodir, bind, os_path_exists, os_path_isdir, py_assert.
  destruct (exists_in (fs w) dirpath); simpl; [|reflexivity].
  now rewrite H.
Qed.

(** C1: without a build context, once the download has written the body
    to [p], [save] does not return [p].  The run of the source is, for
    every fuel, still inside the checksum loop of the verification; and
    with the checksum engine of the specification in its place the
    verification raises [AttributeError], which [save] lets through.  The
    claim says the failure is absorbed and [p] returned. *)
Theorem C1_failure_after_download_is_not_absorbed (fuel : nat) (a : Artifact)
    (p : string) (body : list byte) (w : World) :
  build a = None ->
  urlopen env (url a) = Body body ->
  writable env (fs w) p = true ->
  may_read env p = true ->
  (length body < fuel)%nat ->
  fs (fst (save env fuel a p w)) !! p = Some (File body) /\
  snd (save env fuel a p w) = Timeout /\
  snd (save_computeHash env fuel a p w) = Raise AttributeError.
Proof.
  intros Hb Hu Hw Hr Hlen.
  assert (Hd : download_effect env a p (fs w) = (<[p := File body]> (fs w), Ret p)).
  { unfold download_effect, response_of. now rewrite Hb, Hu, Hw. }
  rewrite (save_downloading_eq fuel a p w (or_intror Hb)). cbv zeta.
  rewrite Hd. simpl.
  split; [apply lookup_insert_eq|]. split.
  - apply (stuck_readable env _ _ body); [apply lookup_insert_eq|exact Hr].
  - unfold save_computeHash.
    rewrite (save_body_downloading env _ a p w (or_intror Hb)).
    unfold download_and_check. unfold bind at 1. rewrite _do_download_eq.
    simpl fs. rewrite Hd. simpl.
    unfold bind at 1. unfold try_except_ArtifactBroken. unfold bind at 1.
    rewrite (verify_with_no_build _ a p (md5_hexdigest env body)); [reflexivity|exact Hb|].
    apply computeHash_digest; try assumption.
    + apply default_chunksize_pos.
    + apply lookup_insert_eq.
Qed.

(** C3 (amended): when [fspath] does not end with the artifact's file
    name, the rename warning is logged; and the file name has no other
    effect on the run: under any other file name [save] ends the same way,
    leaves the same files and makes the same oracle and network calls. *)
Theorem C3_rename_warning_is_advisory (fuel : nat) (a : Artifact) (p : string)
    (w : World) :
  endswith p (filename a) = false ->
  In (ELog WARNING (rename_warning a)) (trace (fst (save env fuel a p w))) /\
  forall name' : string,
    let r := save env fuel a p w in
    let r' := save env fuel (with_filename a name') p w in
    snd r' = snd r /\ fs (fst r') = fs (fst r) /\
    actions (trace (fst r')) = actions (trace (fst r)).
Proof.
  intros Hend.
  assert (Hdl : forall H : exists_in (fs w) p = false \/ build a = None,
    In (ELog WARNING (rename_warning a)) (trace (fst (save env fuel a p w))) /\
    forall name' : string,
      let r := save env fuel a p w in
      let r' := save env fuel (with_filename a name') p w in
      snd r' = snd r /\ fs (fst r') = fs (fst r) /\
      actions (trace (fst r')) = actions (trace (fst r))).
  { intros H. split.
    - rewrite (save_downloading_eq fuel a p w H). simpl.
      unfold fetched. apply in_or_app. left. simpl. apply in_or_app. left.
      now apply (rename_warning_announced a p w).
    - intros name' r r'. subst r r'.
      rewrite (save_downloading_eq fuel a p w H).
      rewrite (save_downloading_eq fuel (with_filename a name') p w H).
      simpl. unfold fetched. rewrite !actions_app, !actions_noted, !actions_announced.
      now repeat split. }
  destruct (build a) as [b|] eqn:Hb; destruct (exists_in (fs w) p) eqn:He.
  2: apply Hdl; now left.
  2: apply Hdl; now right.
  2: apply Hdl; now left.
  split.
  - rewrite (save_cached_build fuel a b p w Hb He). simpl.
    now apply rename_warning_announced.
  - intros name' r r'. subst r r'.
    rewrite (save_cached_build fuel a b p w Hb He).
    rewrite (save_cached_build fuel (with_filename a name') b p w Hb He).
    simpl. rewrite !actions_app.
    destruct (endswith p name'); simpl; rewrite Hend; simpl; now repeat split.
Qed.

End Resolver.

(** ** The statements at concrete inputs *)

Lemma C2_md5sum_never_returns_witness :
  _md5sum (Demo.env_of (Confirms true) []) 1000 Demo.target default_chunksize
    Demo.cached = (Demo.cached, Timeout).
Proof.
  apply (C2_md5sum_never_returns (Demo.env_of (Confirms true) []) 1000
           default_chunksize Demo.target [] Demo.cached).
  - reflexivity.
  - reflexivity.
Defined.

Lemma C4_confirmed_copy_is_never_returned_witness :
  let r := save (Demo.env_of (Confirms true) []) 1000
             (Demo.report (Some Demo.build_A)) Demo.target Demo.cached in
  snd r = Timeout /\ fs (fst r) = fs Demo.cached /\
  fetches (trace (fst r)) = fetches (trace Demo.cached).
Proof.
  apply (C4_confirmed_copy_is_never_returned (Demo.env_of (Confirms true) [])
           1000 (Demo.report (Some Demo.build_A)) Demo.build_A Demo.target []
           Demo.cached); reflexivity.
Defined.

Lemma C6_unclassified_copy_is_never_refetched_witness :
  let r := save (Demo.env_of CannotClassify []) 1000
             (Demo.report (Some Demo.build_A)) Demo.target Demo.cached in
  snd r = Timeout /\ fetches (trace (fst r)) = fetches (trace Demo.cached).
Proof.
  apply (C6_unclassified_copy_is_never_refetched (Demo.env_of CannotClassify [])
           1000 (Demo.report (Some Demo.build_A)) Demo.build_A Demo.target []
           Demo.cached); reflexivity.
Defined.

Lemma C9_refuted_copy_is_never_refetched_witness :
  let r := save (Demo.env_of (Confirms false) []) 1000
             (Demo.report (Some Demo.build_A)) Demo.target Demo.cached in
  snd r = Timeout /\ fs (fst r) !! Demo.target = Some (File []) /\
  fetches (trace (fst r)) = fetches (trace Demo.cached).
Proof.
  apply (C9_refuted_copy_is_never_refetched (Demo.env_of (Confirms false) [])
           1000 (Demo.report (Some Demo.build_A)) Demo.build_A Demo.target []
           Demo.cached); reflexivity.
Defined.

Lemma C5_no_context_always_fetches_witness :
  let w' := fst (save (Demo.env_of (Confirms true) ["x"%byte]) 1000
                   (Demo.report None) Demo.target Demo.cached) in
  fetches (trace w') = [EFetch Plain Demo.report_url] /\
  fs w' !! Demo.target = Some (File ["x"%byte]).
Proof.
  destruct (C5_no_context_always_fetches (Demo.env_of (Confirms true) ["x"%byte])
              1000 (Demo.report None) Demo.target [] Demo.cached
              eq_refl eq_refl) as [Hfetch Hfile].
  split.
  - exact Hfetch.
  - apply Hfile; reflexivity.
Defined.

Lemma C8_savetodir_checks_directory_first_witness :
  savetodir (Demo.env_of (Confirms true) []) 1000 (Demo.report None)
    "/tmp/nowhere" Demo.fresh = (Demo.fresh, Raise AssertionError).
Proof.
  apply (C8_savetodir_checks_directory_first (Demo.env_of (Confirms true) [])
           1000 (Demo.report None) "/tmp/nowhere" Demo.fresh).
  reflexivity.
Defined.

Lemma C1_failure_after_download_is_not_absorbed_witness :
  let env := Demo.env_of (Confirms true) ["x"%byte] in
  fs (fst (save env 1000 (Demo.report None) Demo.target Demo.fresh)) !! Demo.target
    = Some (File ["x"%byte]) /\
  snd (save env 1000 (Demo.report None) Demo.target Demo.fresh) = Timeout /\
  snd (save_computeHash env 1000 (Demo.report None) Demo.target Demo.fresh)
    = Raise AttributeError.
Proof.
  apply (C1_failure_after_download_is_not_absorbed
           (Demo.env_of (Confirms true) ["x"%byte]) 1000 (Demo.report None)
           Demo.target ["x"%byte] Demo.fresh); try reflexivity.
  simpl. lia.
Defined.

Lemma C3_rename_warning_is_advisory_witness :
  let env := Demo.env_of (Confirms true) [] in
  let a := Demo.report None in
  let p := "/tmp/out/renamed.xml"%string in
  In (ELog WARNING (rename_warning a)) (trace (fst (save env 1000 a p Demo.fresh))) /\
  forall name' : string,
    let r := save env 1000 a p Demo.fresh in
    let r' := save env 1000 (with_filename a name') p Demo.fresh in
    snd r' = snd r /\ fs (fst r') = fs (fst r) /\
    actions (trace (fst r')) = actions (trace (fst r)).
Proof.
  apply (C3_rename_warning_is_advisory (Demo.env_of (Confirms true) []) 1000
           (Demo.report None) "/tmp/out/renamed.xml" Demo.fresh).
  reflexivity.
Defined.

(** C3, as stated, fails: the last component of [/tmp/out/xreport.xml]
    is not the artifact's name [report.xml], yet the path ends with it and
    no rename warning is logged. *)
Lemma C3_final_component_counterexample :
  basename "/tmp/out/xreport.xml" <> filename (Demo.report None) /\
  forall fuel : nat,
    ~ In (ELog WARNING (rename_warning (Demo.report None)))
         (trace (fst (save (Demo.env_of (Confirms true) []) fuel
                        (Demo.report None) "/tmp/out/xreport.xml" Demo.fresh))).
Proof.
  split.
  - vm_compute. discriminate.
  - intros fuel.
    rewrite (save_downloading_eq (Demo.env_of (Confirms true) []) fuel
               (Demo.report None) "/tmp/out/xreport.xml" Demo.fresh)
      by (left; reflexivity).
    vm_compute. intros [H|[H|[H|[]]]]; discriminate H.
Qed.



(** * Further properties of the code *)

(** ** Strings and paths *)

Lemma string_length_append (s t : string) :
  String.length (s ++ t)%string = (String.length s + String.length t)%nat.
Proof. induction s as [|c s IH]; simpl; [reflexivity|now rewrite IH]. Qed.

Lemma string_append_assoc (s t u : string) :
  ((s ++ t) ++ u)%string = (s ++ (t ++ u))%string.
Proof.
  induction s as [|c s IH]; [reflexivity|].
  change (String c ((s ++ t) ++ u) = String c (s ++ (t ++ u)))%string.
  now rewrite IH.
Qed.

Lemma substring_whole (t : string) : substring 0 (String.length t) t = t.
Proof. induction t as [|c t IH]; simpl; [reflexivity|now rewrite IH]. Qed.

Lemma substring_skip_append (s t : string) :
  substring (String.length s) (String.length t) (s ++ t)%string = t.
Proof. induction s as [|c s IH]; simpl; [apply substring_whole|exact IH]. Qed.

(** A string ends with whatever was appended to it. *)
Lemma endswith_append (s t : string) : endswith (s ++ t)%string t = true.
Proof.
  unfold endswith. rewrite string_length_append.
  replace (String.length s + String.length t - String.length t)%nat
    with (String.length s) by lia.
  rewrite substring_skip_append, String.eqb_refl.
  rewrite andb_true_r. apply Nat.leb_le. lia.
Qed.

Lemma endswith_refl (t : string) : endswith t t = true.
Proof. exact (endswith_append "" t). Qed.

(** The path that [savetodir] builds ends with the file name. *)
Lemma endswith_os_path_join (d name : string) :
  endswith (os_path_join d name) name = true.
Proof.
  unfold os_path_join. destruct (startswith name "/").
  - apply endswith_refl.
  - destruct (String.eqb d "" || endswith d "/").
    + apply endswith_append.
    + rewrite <- string_append_assoc. apply endswith_append.
Qed.

Lemma append_inj_r (s t u : string) : (s ++ u)%string = (t ++ u)%string -> s = t.
Proof.
  intros H.
  assert (Hlen : String.length s = String.length t).
  { apply (f_equal String.length) in H. rewrite !string_length_append in H. lia. }
  revert t H Hlen. induction s as [|c s IH]; intros [|d t] H Hlen;
    simpl in Hlen; try discriminate; [reflexivity|].
  change (String c (s ++ u) = String d (t ++ u))%string in H.
  inversion H; subst. f_equal. apply IH; [assumption|lia].
Qed.

(** ** The checksum and the verification *)

Section MoreChecksum.

Variable env : Env.

(** X1: [_md5sum] of a path that is missing, is a directory, or may not be
    read raises the error of [open] and leaves the world as it was. *)
Theorem X1_md5sum_propagates_open_error (fuel : nat) (p : string)
    (chunksize : nat) (w : World) :
  fs w !! p = None \/ fs w !! p = Some Dir \/ may_read env p = false ->
  _md5sum env fuel p chunksize w = (w, Raise OSError).
Proof.
  intros H. apply md5sum_with_unreadable. unfold readable.
  destruct H as [H|[H|H]]; try (rewrite H; reflexivity).
  rewrite H. now destruct (fs w !! p) as [[c|]|].
Qed.

(** X2: [_verify_download] never gives a verdict and never asks the
    oracle: whatever the artifact, the path and the world, it leaves the
    world (the trace included) as it was and either raises the error of
    [open] or is still reading. *)
Theorem X2_verify_download_gives_no_verdict (fuel : nat) (a : Artifact)
    (p : string) (w : World) :
  exists r : Result bool,
    _verify_download env fuel a p w = (w, r) /\
    (r = Timeout \/ r = Raise OSError).
Proof.
  exists (stuck env (fs w) p). split.
  - apply _verify_download_outcome.
  - unfold stuck. destruct (readable env (fs w) p); [now left|now right].
Qed.

End MoreChecksum.

(** ** The download step *)

Section MoreDownload.

Variable env : Env.

(** X3: when the remote end delivers a body and the target may be
    written, [_do_download] makes one fetch, stores the body at [fspath]
    and returns [fspath]; the authenticated opener is used with a build
    context, the plain fetch without. *)
Theorem X3_do_download_stores_body (a : Artifact) (p : string)
    (body : list byte) (w : World) :
  response_of env a = Body body ->
  writable env (fs w) p = true ->
  _do_download env a p w =
  (mkWorld (<[p := File body]> (fs w))
     (trace w ++ [EFetch (transport_of a) (url a)]),
   Ret p).
Proof.
  intros Hr Hw. rewrite _do_download_eq. unfold download_effect.
  now rewrite Hr, Hw.
Qed.

(** X4: when the connection fails, [_do_download] raises and no file is
    created, truncated or changed. *)
Theorem X4_do_download_connection_failure (a : Artifact) (p : string) (w : World) :
  response_of env a = ConnFail ->
  _do_download env a p w =
  (mkWorld (fs w) (trace w ++ [EFetch (transport_of a) (url a)]), Raise URLError).
Proof.
  intros Hr. rewrite _do_download_eq. unfold download_effect. now rewrite Hr.
Qed.

(** X5: with a build context the file is opened for writing before the
    response is read, so a read that fails leaves an empty file at
    [fspath], whatever was there before. *)
Theorem X5_failed_read_truncates_target (a : Artifact) (b : Build) (p : string)
    (partial : list byte) (w : World) :
  build a = Some b ->
  opener env (url a) = ReadFail partial ->
  writable env (fs w) p = true ->
  snd (_do_download env a p w) = Raise URLError /\
  fs (fst (_do_download env a p w)) !! p = Some (File []).
Proof.
  intros Hb Hr Hw. rewrite _do_download_eq. unfold download_effect, response_of.
  rewrite Hb, Hr, Hw. simpl. split; [reflexivity|apply lookup_insert_eq].
Qed.

Lemma download_effect_frame (a : Artifact) (p q : string)
    (files : gmap string Node) :
  q <> p -> fst (download_effect env a p files) !! q = files !! q.
Proof.
  intros Hq. unfold download_effect.
  destruct (response_of env a); try destruct (writable env files p); simpl;
    try reflexivity; now apply lookup_insert_ne.
Qed.

(** X6: [_do_download] touches no path but [fspath], whether it returns
    or raises. *)
Theorem X6_do_download_touches_only_target (a : Artifact) (p q : string)
    (w : World) :
  q <> p ->
  fs (fst (_do_download env a p w)) !! q = fs w !! q.
Proof.
  intros Hq. rewrite _do_download_eq. simpl. now apply download_effect_frame.
Qed.

(** X7: every call of [_do_download] makes exactly one fetch, of the
    artifact's url: through the build's opener when there is a build
    context, plain otherwise; also when it goes on to raise. *)
Theorem X7_do_download_fetches_once (a : Artifact) (p : string) (w : World) :
  fetches (trace (fst (_do_download env a p w))) =
  fetches (trace w) ++
    [EFetch (match build a with Some _ => Authenticated | None => Plain end) (url a)].
Proof.
  rewrite _do_download_eq. simpl. unfold fetched. rewrite fetches_app.
  reflexivity.
Qed.

End MoreDownload.

(** ** [save] and [savetodir] *)

Section MoreResolver.

Variable env : Env.

Lemma oracle_queries_app (t u : list Event) :
  oracle_queries (t ++ u) = oracle_queries t ++ oracle_queries u.
Proof. apply List.filter_app. Qed.

Lemma warnings_app (t u : list Event) : warnings (t ++ u) = warnings t ++ warnings u.
Proof. apply List.filter_app. Qed.

Lemma oracle_queries_announced (a : Artifact) (p : string) (w : World) :
  oracle_queries (trace (announced a p w)) = oracle_queries (trace w).
Proof.
  unfold announced. simpl. rewrite !oracle_queries_app.
  destruct (endswith p (filename a)); simpl; now rewrite !app_nil_r.
Qed.

Lemma warnings_announced (a : Artifact) (p : string) (w : World) :
  warnings (trace (announced a p w)) =
  warnings (trace w) ++
    (if endswith p (filename a) then [] else [ELog WARNING (rename_warning a)]).
Proof.
  unfold announced. simpl. rewrite !warnings_app. simpl.
  rewrite app_nil_r. now destruct (endswith p (filename a)).
Qed.

Lemma oracle_queries_noted (msg : string) (w : World) :
  oracle_queries (trace (noted msg w)) = oracle_queries (trace w).
Proof.
  unfold noted. simpl. rewrite oracle_queries_app. simpl. now rewrite app_nil_r.
Qed.

Lemma warnings_noted (msg : string) (w : World) :
  warnings (trace (noted msg w)) = warnings (trace w).
Proof. unfold noted. simpl. rewrite warnings_app. simpl. now rewrite app_nil_r. Qed.

Lemma download_effect_raises (a : Artifact) (p : string)
    (files : gmap string Node) (e : Exc) :
  snd (download_effect env a p files) = Raise e -> e = OSError \/ e = URLError.
Proof.
  unfold download_effect.
  destruct (response_of env a); try destruct (writable env files p); simpl;
    intros H; inversion H; auto.
Qed.

Lemma download_effect_no_timeout (a : Artifact) (p : string)
    (files : gmap string Node) :
  snd (download_effect env a p files) <> Timeout.
Proof.
  unfold download_effect.
  destruct (response_of env a); try destruct (writable env files p); simpl;
    discriminate.
Qed.

Lemma isdir_exists (files : gmap string Node) (d : string) :
  isdir_in files d = true -> exists_in files d = true.
Proof. unfold isdir_in, exists_in. now destruct (files !! d). Qed.

(** Splits on the two forms of a run of [save] and puts the run in its
    closed form. *)
Ltac save_forms fuel a p w :=
  let b := fresh "b" in
  let Hb := fresh "Hb" in
  let He := fresh "He" in
  destruct (build a) as [b|] eqn:Hb; destruct (exists_in (fs w) p) eqn:He;
  [ rewrite (save_cached_build env fuel a b p w Hb He)
  | rewrite (save_downloading_eq env fuel a p w (or_introl He))
  | rewrite (save_downloading_eq env fuel a p w (or_intror Hb))
  | rewrite (save_downloading_eq env fuel a p w (or_introl He)) ];
  cbv zeta; simpl fst; simpl snd.

(** X8: no run of [save] returns a path, and none raises anything but the
    error of [open] or the error of the transport: each run ends raising one
    of these two or is still inside the checksum loop. *)
Theorem X8_save_raises_or_hangs (fuel : nat) (a : Artifact) (p : string)
    (w : World) :
  snd (save env fuel a p w) = Timeout \/
  snd (save env fuel a p w) = Raise OSError \/
  snd (save env fuel a p w) = Raise URLError.
Proof.
  save_forms fuel a p w.
  1: unfold stuck; destruct (readable env (fs w) p); auto.
  all: destruct (snd (download_effect env a p (fs w))) as [n|e|] eqn:Hd;
    [ unfold stuck; destruct (readable env _ n); auto
    | apply download_effect_raises in Hd as [->| ->]; auto
    | now left ].
Qed.

(** X9: no run of [save] puts a query to the fingerprint oracle. *)
Theorem X9_save_never_asks_the_oracle (fuel : nat) (a : Artifact) (p : string)
    (w : World) :
  oracle_queries (trace (fst (save env fuel a p w))) = oracle_queries (trace w).
Proof.
  save_forms fuel a p w; simpl trace.
  1: apply oracle_queries_announced.
  all: unfold fetched;
    rewrite oracle_queries_app, oracle_queries_noted, oracle_queries_announced;
    simpl; now rewrite app_nil_r.
Qed.

(** X10: [save] touches no path but [fspath], however it ends. *)
Theorem X10_save_touches_only_target (fuel : nat) (a : Artifact) (p q : string)
    (w : World) :
  q <> p ->
  fs (fst (save env fuel a p w)) !! q = fs w !! q.
Proof.
  intros Hq. save_forms fuel a p w; simpl fs.
  1: reflexivity.
  all: now apply download_effect_frame.
Qed.

(** X11: with a build context, when something is at [fspath] that cannot
    be opened for reading (a directory, or a file without the permission),
    [save] raises the error of [open]: nothing is fetched and no file
    changes. *)
Theorem X11_save_unreadable_copy_raises (fuel : nat) (a : Artifact) (b : Build)
    (p : string) (n : Node) (w : World) :
  build a = Some b ->
  fs w !! p = Some n ->
  n = Dir \/ may_read env p = false ->
  let r := save env fuel a p w in
  snd r = Raise OSError /\ fs (fst r) = fs w /\
  fetches (trace (fst r)) = fetches (trace w).
Proof.
  intros Hb Hn Hu r. subst r.
  rewrite (save_cached_build env fuel a b p w Hb (exists_in_file _ _ _ Hn)).
  simpl. split; [|split; [reflexivity|apply fetches_announced]].
  unfold stuck, readable. rewrite Hn.
  destruct Hu as [->|Hu]; [reflexivity|]. rewrite Hu. now destruct n.
Qed.

(** X12: when [save] has to download and the connection fails, the error
    of the transport reaches the caller and no file is created or changed. *)
Theorem X12_save_propagates_connection_failure (fuel : nat) (a : Artifact)
    (p : string) (w : World) :
  exists_in (fs w) p = false \/ build a = None ->
  response_of env a = ConnFail ->
  snd (save env fuel a p w) = Raise URLError /\
  fs (fst (save env fuel a p w)) = fs w.
Proof.
  intros H Hr. rewrite (save_downloading_eq env fuel a p w H). cbv zeta.
  unfold download_effect. rewrite Hr. simpl. now split.
Qed.

(** X13: when nothing is at [fspath], [save] makes exactly one fetch, of
    the artifact's url, through the build's opener when there is a build
    context and plain otherwise; and when the fetch delivers a body and the
    file may be written, the file at [fspath] holds that body afterwards. *)
Theorem X13_save_missing_file_downloads (fuel : nat) (a : Artifact) (p : string)
    (w : World) :
  fs w !! p = None ->
  let w' := fst (save env fuel a p w) in
  fetches (trace w') = fetches (trace w) ++ [EFetch (transport_of a) (url a)] /\
  forall body,
    response_of env a = Body body ->
    may_write env p = true ->
    fs w' !! p = Some (File body).
Proof.
  intros Hn w'. subst w'.
  assert (He : exists_in (fs w) p = false) by (unfold exists_in; now rewrite Hn).
  rewrite (save_downloading_eq env fuel a p w (or_introl He)). simpl. split.
  - unfold fetched. now rewrite fetches_app, fetches_noted, fetches_announced.
  - intros body Hr Hw. unfold download_effect, writable.
    rewrite Hr, Hn, Hw. simpl. apply lookup_insert_eq.
Qed.

(** X14: the first thing every run of [save] does is to log the line
    "Saving artifact @ url to fspath"; what was in the trace stays. *)
Theorem X14_save_logs_saving_line_first (fuel : nat) (a : Artifact) (p : string)
    (w : World) :
  exists rest,
    trace (fst (save env fuel a p w)) =
    trace w ++ ELog INFO (saving_message a p) :: rest.
Proof.
  save_forms fuel a p w; simpl trace; unfold fetched, noted, announced; simpl;
    eexists; rewrite <- !app_assoc; simpl; reflexivity.
Qed.

(** X15: the warnings that a run of [save] logs are the rename warning,
    once, when [fspath] does not end with the artifact's file name, and
    none otherwise. *)
Theorem X15_save_warns_only_of_rename (fuel : nat) (a : Artifact) (p : string)
    (w : World) :
  warnings (trace (fst (save env fuel a p w))) =
  warnings (trace w) ++
    (if endswith p (filename a) then [] else [ELog WARNING (rename_warning a)]).
Proof.
  save_forms fuel a p w; simpl trace.
  1: apply warnings_announced.
  all: unfold fetched;
    rewrite warnings_app, warnings_noted, warnings_announced;
    simpl; now rewrite app_nil_r.
Qed.

(** X16: when [dirpath] is a directory, [savetodir] is [save] at
    [os.path.join(dirpath, filename)], and that run logs no warning: the
    joined path always ends with the file name. *)
Theorem X16_savetodir_delegates_without_warning (fuel : nat) (a : Artifact)
    (dirpath : string) (w : World) :
  isdir_in (fs w) dirpath = true ->
  savetodir env fuel a dirpath w =
    save env fuel a (os_path_join dirpath (filename a)) w /\
  warnings (trace (fst (savetodir env fuel a dirpath w))) = warnings (trace w).
Proof.
  intros Hd.
  assert (Heq : savetodir env fuel a dirpath w =
                save env fuel a (os_path_join dirpath (filename a)) w).
  { unfold savetodir, bind, os_path_exists, os_path_isdir, py_assert, ret.
    now rewrite (isdir_exists _ _ Hd), Hd. }
  split; [exact Heq|]. rewrite Heq.
  set (p := os_path_join dirpath (filename a)).
  assert (Hend : endswith p (filename a) = true) by apply endswith_os_path_join.
  save_forms fuel a p w.
  1: rewrite warnings_announced, Hend; apply app_nil_r.
  all: cbn [trace]; unfold fetched;
    rewrite warnings_app, warnings_noted, warnings_announced, Hend;
    simpl; now rewrite !app_nil_r.
Qed.

End MoreResolver.

(** ** The path that [savetodir] saves to, and [__repr__] *)







Lemma append_inj_l (s t u : string) : (s ++ t)%string = (s ++ u)%string -> t = u.
Proof.
  induction s as [|c s IH]; intros H; [exact H|].
  change (String c (s ++ t)%string = String c (s ++ u)%string) in H.
  inversion H. now apply IH.
Qed.


(** X18: [__repr__] shows the url and nothing else of an artifact:
    artifacts with the same representation have the same url. *)
Theorem X18_repr_determines_url (a b : Artifact) :
  __repr__ a = __repr__ b -> url a = url b.
Proof.
  unfold __repr__. intros H.
  do 5 apply append_inj_l in H.
  now apply append_inj_r in H.
Qed.

(** ** The further properties at concrete inputs *)

Lemma X1_md5sum_propagates_open_error_witness :
  _md5sum (Demo.env_of (Confirms true) []) 1000 Demo.target default_chunksize
    Demo.fresh = (Demo.fresh, Raise OSError).
Proof.
  apply (X1_md5sum_propagates_open_error (Demo.env_of (Confirms true) []) 1000
           Demo.target default_chunksize Demo.fresh).
  left. reflexivity.
Defined.

Lemma X3_do_download_stores_body_witness :
  _do_download (Demo.env_of (Confirms true) ["x"%byte])
    (Demo.report (Some Demo.build_A)) Demo.target MoreDemo.stale =
  (mkWorld (<[Demo.target := File ["x"%byte]]> (fs MoreDemo.stale))
     [EFetch Authenticated Demo.report_url],
   Ret Demo.target).
Proof.
  apply (X3_do_download_stores_body (Demo.env_of (Confirms true) ["x"%byte])
           (Demo.report (Some Demo.build_A)) Demo.target ["x"%byte]
           MoreDemo.stale); reflexivity.
Defined.

Lemma X4_do_download_connection_failure_witness :
  _do_download MoreDemo.offline (Demo.report None) Demo.target MoreDemo.stale =
  (mkWorld (fs MoreDemo.stale) [EFetch Plain Demo.report_url], Raise URLError).
Proof.
  apply (X4_do_download_connection_failure MoreDemo.offline (Demo.report None)
           Demo.target MoreDemo.stale).
  reflexivity.
Defined.

Lemma X5_failed_read_truncates_target_witness :
  snd (_do_download MoreDemo.flaky (Demo.report (Some Demo.build_A))
         Demo.target MoreDemo.stale) = Raise URLError /\
  fs (fst (_do_download MoreDemo.flaky (Demo.report (Some Demo.build_A))
             Demo.target MoreDemo.stale)) !! Demo.target = Some (File []).
Proof.
  apply (X5_failed_read_truncates_target MoreDemo.flaky
           (Demo.report (Some Demo.build_A)) Demo.build_A Demo.target
           ["x"%byte] MoreDemo.stale); reflexivity.
Defined.

Lemma X6_do_download_touches_only_target_witness :
  fs (fst (_do_download (Demo.env_of (Confirms true) ["x"%byte])
             (Demo.report None) Demo.target MoreDemo.stale)) !! "/tmp/out"%string
  = fs MoreDemo.stale !! "/tmp/out"%string.
Proof.
  apply (X6_do_download_touches_only_target
           (Demo.env_of (Confirms true) ["x"%byte]) (Demo.report None)
           Demo.target "/tmp/out" MoreDemo.stale).
  discriminate.
Defined.

Lemma X10_save_touches_only_target_witness :
  fs (fst (save (Demo.env_of (Confirms true) ["x"%byte]) 1000
             (Demo.report None) Demo.target MoreDemo.stale)) !! "/tmp/out"%string
  = fs MoreDemo.stale !! "/tmp/out"%string.
Proof.
  apply (X10_save_touches_only_target (Demo.env_of (Confirms true) ["x"%byte])
           1000 (Demo.report None) Demo.target "/tmp/out" MoreDemo.stale).
  discriminate.
Defined.

Lemma X11_save_unreadable_copy_raises_witness :
  let r := save (Demo.env_of (Confirms true) ["x"%byte]) 1000
             (Demo.report (Some Demo.build_A)) "/tmp/out" MoreDemo.stale in
  snd r = Raise OSError /\ fs (fst r) = fs MoreDemo.stale /\
  fetches (trace (fst r)) = fetches (trace MoreDemo.stale).
Proof.
  apply (X11_save_unreadable_copy_raises (Demo.env_of (Confirms true) ["x"%byte])
           1000 (Demo.report (Some Demo.build_A)) Demo.build_A "/tmp/out" Dir
           MoreDemo.stale).
  - reflexivity.
  - reflexivity.
  - left. reflexivity.
Defined.

Lemma X12_save_propagates_connection_failure_witness :
  snd (save MoreDemo.offline 1000 (Demo.report (Some Demo.build_A)) Demo.target
         Demo.fresh) = Raise URLError /\
  fs (fst (save MoreDemo.offline 1000 (Demo.report (Some Demo.build_A))
             Demo.target Demo.fresh)) = fs Demo.fresh.
Proof.
  apply (X12_save_propagates_connection_failure MoreDemo.offline 1000
           (Demo.report (Some Demo.build_A)) Demo.target Demo.fresh).
  - left. reflexivity.
  - reflexivity.
Defined.

Lemma X13_save_missing_file_downloads_witness :
  let w' := fst (save (Demo.env_of (Confirms true) ["x"%byte]) 1000
                   (Demo.report (Some Demo.build_A)) Demo.target Demo.fresh) in
  fetches (trace w') = [EFetch Authenticated Demo.report_url] /\
  fs w' !! Demo.target = Some (File ["x"%byte]).
Proof.
  destruct (X13_save_missing_file_downloads
              (Demo.env_of (Confirms true) ["x"%byte]) 1000
              (Demo.report (Some Demo.build_A)) Demo.target Demo.fresh
              eq_refl) as [Hfetch Hfile].
  split.
  - exact Hfetch.
  - apply Hfile; reflexivity.
Defined.

Lemma X16_savetodir_delegates_without_warning_witness :
  let env := Demo.env_of (Confirms true) ["x"%byte] in
  savetodir env 1000 (Demo.report None) "/tmp/out" Demo.fresh =
    save env 1000 (Demo.report None) Demo.target Demo.fresh /\
  warnings (trace (fst (savetodir env 1000 (Demo.report None) "/tmp/out"
                          Demo.fresh))) = [].
Proof.
  apply (X16_savetodir_delegates_without_warning
           (Demo.env_of (Confirms true) ["x"%byte]) 1000 (Demo.report None)
           "/tmp/out" Demo.fresh).
  reflexivity.
Defined.


Lemma X18_repr_determines_url_witness :
  url (Demo.report None) = url (with_filename (Demo.report (Some Demo.build_A)) "copy.xml").
Proof.
  apply (X18_repr_determines_url (Demo.report None)
           (with_filename (Demo.report (Some Demo.build_A)) "copy.xml")).
  reflexivity.
Defined.
